(** * Trade-Track: the trade repository and its statistics

    A shallow embedding of [server/storage.ts] (class [DatabaseStorage]), of
    the [users] and [trades] tables of the shared schema, and of the route
    handlers of [registerRoutes].

    Modelling conventions.
    - The [trades] table is a list of rows, in insertion order.  The queries
      of the source (select / insert / update / delete with a [where]
      clause) are list operations on it.  Failures of the store itself
      (connectivity, constraint violations, column overflow) are outside the
      model: every query completes.
    - A [decimal(10, 2)] column holds a whole number of hundredths, a [Z].
      The driver hands such a column to the program as a decimal literal (a
      string); a literal is never the empty string, so in a JavaScript
      condition a present price is always truthy (also ["0.00"]).
    - A JavaScript [number] is a rational [Q]: arithmetic is exact, the
      rounding error of binary floating point is not modelled.
    - [new Date()] and the store's [now()] are the parameter [now]
      (milliseconds since the epoch); the identifier drawn by
      [gen_random_uuid()] is the parameter [newId].
    - The server's time zone is a fixed offset [tz] from UTC (no daylight
      saving), so a calendar day lasts [msPerDay] milliseconds. *)

From Stdlib Require Import ZArith QArith Qround List String Bool Lia Lqa.
From Stdlib Require Import Sorted Permutation.
Import ListNotations.

Local Open Scope Z_scope.

(** ** Values *)

(** An optional, nullable property of a JavaScript object. *)
Inductive optional (A : Type) : Type :=
| undefined
| null
| value (a : A).

Arguments undefined {A}.
Arguments null {A}.
Arguments value {A} a.

(** The truthiness of a property that holds a non-empty string when it is
    present. *)
Definition truthy {A : Type} (o : optional A) : bool :=
  match o with
  | value _ => true
  | _ => false
  end.

(** What an [insert] writes into a nullable column without a default. *)
Definition inserted {A : Type} (o : optional A) : option A :=
  match o with
  | value a => Some a
  | _ => None
  end.

(** What an [insert] writes into a nullable column with a default. *)
Definition insertedOr {A : Type} (dflt : A) (o : optional A) : option A :=
  match o with
  | undefined => Some dflt
  | null => None
  | value a => Some a
  end.

(** What an [update ... set] does to a nullable column: an absent key leaves
    the column as it is, [null] clears it. *)
Definition assigned {A : Type} (o : optional A) (old : option A) : option A :=
  match o with
  | undefined => old
  | null => None
  | value a => Some a
  end.

(** What an [update ... set] does to a [notNull] column. *)
Definition assignedNN {A : Type} (o : option A) (old : A) : A :=
  match o with
  | None => old
  | Some a => a
  end.

(** A [decimal(10, 2)] value, in hundredths. *)
Definition decimal := Z.

(** A [timestamp], in milliseconds since the epoch. *)
Definition timestamp := Z.

(** [parseFloat(d.toString())] for a decimal literal [d]. *)
Definition parseFloat (d : decimal) : Q := d # 100.

(** [Math.round]: the nearest integer, a tie going up. *)
Definition Math_round (x : Q) : Z := Qfloor (x + (1 # 2)).

(** [x.toString()] written into a [decimal(10, 2)] column: the store rounds
    to two fractional digits, a tie going away from zero. *)
Definition toDecimal (x : Q) : decimal :=
  if Qle_bool 0 x
  then Qfloor (x * 100 + (1 # 2))
  else - Qfloor (- x * 100 + (1 # 2)).

(** ** The schema *)

(** A row of [trades] ([typeof trades.$inferSelect]). *)
Module Trade.
Record t : Type := mk {
  id : string;
  userId : string;
  symbol : string;
  type : string;
  quantity : Z;
  entryPrice : decimal;
  exitPrice : option decimal;
  pnl : option decimal;
  status : string;
  notes : option string;
  entryTime : option timestamp;
  exitTime : option timestamp;
  createdAt : option timestamp;
  updatedAt : option timestamp
}.
End Trade.

(** [insertTradeSchema]: the insert schema of [trades] without [id],
    [userId], [createdAt] and [updatedAt]. *)
Module InsertTrade.
Record t : Type := mk {
  symbol : string;
  type : string;
  quantity : Z;
  entryPrice : decimal;
  exitPrice : optional decimal;
  pnl : optional decimal;
  status : option string;
  notes : optional string;
  entryTime : optional timestamp;
  exitTime : optional timestamp
}.
End InsertTrade.

(** [updateTradeSchema]: the same schema, [.partial()]. *)
Module UpdateTrade.
Record t : Type := mk {
  symbol : option string;
  type : option string;
  quantity : option Z;
  entryPrice : option decimal;
  exitPrice : optional decimal;
  pnl : optional decimal;
  status : option string;
  notes : optional string;
  entryTime : optional timestamp;
  exitTime : optional timestamp
}.

(** The object [{}]. *)
Definition empty : t :=
  mk None None None None undefined undefined None undefined undefined
     undefined.
End UpdateTrade.

(** The table. *)
Definition Table := list Trade.t.

(** ** Where clauses *)

(** [eq(trades.userId, userId)] *)
Definition ownedBy (userId : string) (t : Trade.t) : bool :=
  (Trade.userId t =? userId)%string.

(** [and(eq(trades.id, tradeId), eq(trades.userId, userId))] *)
Definition isTrade (tradeId userId : string) (t : Trade.t) : bool :=
  (Trade.id t =? tradeId)%string && ownedBy userId t.

(** [and(gte(trades.createdAt, startDate), lte(trades.createdAt, endDate))];
    a comparison with NULL is not true. *)
Definition createdBetween (startDate endDate : timestamp) (t : Trade.t)
  : bool :=
  match Trade.createdAt t with
  | Some c => (startDate <=? c) && (c <=? endDate)
  | None => false
  end.

(** [eq(trades.status, 'closed')] *)
Definition isClosed (t : Trade.t) : bool :=
  (Trade.status t =? "closed")%string.

(** ** Order by [desc(trades.createdAt)] *)

(** [a] may come before [b]: descending, NULLs first. *)
Definition newerOrSame (a b : Trade.t) : bool :=
  match Trade.createdAt a, Trade.createdAt b with
  | None, _ => true
  | Some _, None => false
  | Some x, Some y => y <=? x
  end.

Fixpoint insertDesc (t : Trade.t) (l : list Trade.t) : list Trade.t :=
  match l with
  | [] => [t]
  | h :: r => if newerOrSame t h then t :: l else h :: insertDesc t r
  end.

Definition orderByDesc (l : list Trade.t) : list Trade.t :=
  fold_right insertDesc [] l.

(** ** Trade operations *)

Definition getTrades (userId : string) (limit : option nat) (db : Table)
  : list Trade.t :=
  let limit := match limit with Some n => n | None => 10%nat end in
  firstn limit (orderByDesc (filter (ownedBy userId) db)).

Definition getTradesByDateRange (userId : string)
    (startDate endDate : timestamp) (db : Table) : list Trade.t :=
  orderByDesc
    (filter (fun t => ownedBy userId t && createdBetween startDate endDate t)
            db).

Definition createTrade (now : timestamp) (newId : string) (userId : string)
    (trade : InsertTrade.t) (db : Table) : Trade.t * Table :=
  (* Calculate P&L if both entry and exit prices are provided:
     [trade.exitPrice && trade.entryPrice], where the required [entryPrice]
     is always present *)
  let pnl :=
    match InsertTrade.exitPrice trade with
    | value exit =>
        let entryPrice := parseFloat (InsertTrade.entryPrice trade) in
        let exitPrice := parseFloat exit in
        let quantity := inject_Z (InsertTrade.quantity trade) in
        if (InsertTrade.type trade =? "long")%string
        then Some (toDecimal ((exitPrice - entryPrice) * quantity))
        else Some (toDecimal ((entryPrice - exitPrice) * quantity))
    | _ => None
    end in
  let newTrade :=
    {| Trade.id := newId;
       Trade.userId := userId;
       Trade.symbol := InsertTrade.symbol trade;
       Trade.type := InsertTrade.type trade;
       Trade.quantity := InsertTrade.quantity trade;
       Trade.entryPrice := InsertTrade.entryPrice trade;
       Trade.exitPrice := inserted (InsertTrade.exitPrice trade);
       Trade.pnl := pnl;
       Trade.status :=
         if truthy (InsertTrade.exitPrice trade) then "closed"%string
         else "open"%string;
       Trade.notes := inserted (InsertTrade.notes trade);
       Trade.entryTime := insertedOr now (InsertTrade.entryTime trade);
       Trade.exitTime :=
         if truthy (InsertTrade.exitPrice trade) then Some now else None;
       Trade.createdAt := Some now;
       Trade.updatedAt := Some now |} in
  (newTrade, db ++ [newTrade]).

(** [trade.quantity || 0] *)
Definition orZero (q : option Z) : Z :=
  match q with
  | Some n => n
  | None => 0
  end.

(** [trade.type === 'long'] for an optional [type]. *)
Definition isLong (ty : option string) : bool :=
  match ty with
  | Some s => (s =? "long")%string
  | None => false
  end.

(** The object [updateData] that [updateTrade] hands to [set]. *)
Definition updateData (now : timestamp) (trade : UpdateTrade.t)
  : UpdateTrade.t :=
  (* Calculate P&L if both entry and exit prices are provided:
     [trade.exitPrice && trade.entryPrice] on the partial input *)
  match UpdateTrade.exitPrice trade, UpdateTrade.entryPrice trade with
  | value exit, Some entry =>
      let entryPrice := parseFloat entry in
      let exitPrice := parseFloat exit in
      let quantity := inject_Z (orZero (UpdateTrade.quantity trade)) in
      let pnl :=
        if isLong (UpdateTrade.type trade)
        then toDecimal ((exitPrice - entryPrice) * quantity)
        else toDecimal ((entryPrice - exitPrice) * quantity) in
      {| UpdateTrade.symbol := UpdateTrade.symbol trade;
         UpdateTrade.type := UpdateTrade.type trade;
         UpdateTrade.quantity := UpdateTrade.quantity trade;
         UpdateTrade.entryPrice := UpdateTrade.entryPrice trade;
         UpdateTrade.exitPrice := UpdateTrade.exitPrice trade;
         UpdateTrade.pnl := value pnl;
         UpdateTrade.status := Some "closed"%string;
         UpdateTrade.notes := UpdateTrade.notes trade;
         UpdateTrade.entryTime := UpdateTrade.entryTime trade;
         UpdateTrade.exitTime := value now |}
  | _, _ => trade
  end.

(** [set({ ...updateData, updatedAt: new Date() })] on one row. *)
Definition setRow (now : timestamp) (data : UpdateTrade.t) (t : Trade.t)
  : Trade.t :=
  {| Trade.id := Trade.id t;
     Trade.userId := Trade.userId t;
     Trade.symbol := assignedNN (UpdateTrade.symbol data) (Trade.symbol t);
     Trade.type := assignedNN (UpdateTrade.type data) (Trade.type t);
     Trade.quantity :=
       assignedNN (UpdateTrade.quantity data) (Trade.quantity t);
     Trade.entryPrice :=
       assignedNN (UpdateTrade.entryPrice data) (Trade.entryPrice t);
     Trade.exitPrice :=
       assigned (UpdateTrade.exitPrice data) (Trade.exitPrice t);
     Trade.pnl := assigned (UpdateTrade.pnl data) (Trade.pnl t);
     Trade.status := assignedNN (UpdateTrade.status data) (Trade.status t);
     Trade.notes := assigned (UpdateTrade.notes data) (Trade.notes t);
     Trade.entryTime :=
       assigned (UpdateTrade.entryTime data) (Trade.entryTime t);
     Trade.exitTime :=
       assigned (UpdateTrade.exitTime data) (Trade.exitTime t);
     Trade.createdAt := Trade.createdAt t;
     Trade.updatedAt := Some now |}.

(** The result is the first row of [returning()], [None] for JavaScript's
    [undefined] when no row was updated. *)
Definition updateTrade (now : timestamp) (tradeId userId : string)
    (trade : UpdateTrade.t) (db : Table) : option Trade.t * Table :=
  let data := updateData now trade in
  let returning := map (setRow now data) (filter (isTrade tradeId userId) db) in
  (hd_error returning,
   map (fun t => if isTrade tradeId userId t then setRow now data t else t)
       db).

Definition deleteTrade (tradeId userId : string) (db : Table) : Table :=
  filter (fun t => negb (isTrade tradeId userId t)) db.

(** ** Statistics *)

Record TradingStats : Type := {
  todayTrades : nat;
  yesterdayTrades : nat;
  totalTrades : nat;
  winRate : Q;
  totalPnL : Q
}.

Definition msPerDay : Z := 86400000.

(** [d.setHours(0, 0, 0, 0)] in a zone [tz] milliseconds ahead of UTC. *)
Definition setHours0 (tz : Z) (d : timestamp) : timestamp :=
  d - (d + tz) mod msPerDay.

(** [d.setDate(d.getDate() + n)] *)
Definition addDays (n : Z) (d : timestamp) : timestamp :=
  d + n * msPerDay.

(** [select count( * )] *)
Definition count (p : Trade.t -> bool) (db : Table) : nat :=
  List.length (filter p db).

(** [trade.pnl && parseFloat(trade.pnl.toString()) > 0] *)
Definition isWinning (t : Trade.t) : bool :=
  match Trade.pnl t with
  | Some p => negb (Qle_bool (parseFloat p) 0)
  | None => false
  end.

(** [trade.pnl ? parseFloat(trade.pnl.toString()) : 0] *)
Definition pnlOrZero (t : Trade.t) : Q :=
  match Trade.pnl t with
  | Some p => parseFloat p
  | None => 0%Q
  end.

(** [Math.round(x * 100) / 100] *)
Definition round2 (x : Q) : Q :=
  (inject_Z (Math_round (x * 100)) / 100)%Q.

Definition getTradingStats (tz : Z) (now : timestamp) (userId : string)
    (db : Table) : TradingStats :=
  let today := setHours0 tz now in
  let tomorrow := addDays 1 today in
  let yesterday := addDays (-1) today in
  (* Get today's trades count *)
  let todayResult :=
    count (fun t => ownedBy userId t && createdBetween today tomorrow t) db in
  (* Get yesterday's trades count *)
  let yesterdayResult :=
    count (fun t => ownedBy userId t && createdBetween yesterday today t) db in
  (* Get total trades count *)
  let totalResult := count (ownedBy userId) db in
  (* Get win rate and total P&L *)
  let closedTrades := filter (fun t => ownedBy userId t && isClosed t) db in
  let winningTrades := filter isWinning closedTrades in
  let winRate :=
    if (0 <? List.length closedTrades)%nat
    then (inject_Z (Z.of_nat (List.length winningTrades))
          / inject_Z (Z.of_nat (List.length closedTrades)) * 100)%Q
    else 0%Q in
  let totalPnL :=
    fold_left (fun sum trade => (sum + pnlOrZero trade)%Q) closedTrades 0%Q in
  {| todayTrades := todayResult;
     yesterdayTrades := yesterdayResult;
     totalTrades := totalResult;
     winRate := round2 winRate;
     totalPnL := round2 totalPnL |}.

(** ** Notions of the specification *)

(** The four facts of a closed trade come together: the status is [closed]
    iff the exit price is set iff the profit and loss is set iff the exit
    time is set. *)
Definition closedTogether (t : Trade.t) : Prop :=
  (Trade.status t = "closed"%string <-> Trade.exitPrice t <> None)
  /\ (Trade.exitPrice t <> None <-> Trade.pnl t <> None)
  /\ (Trade.pnl t <> None <-> Trade.exitTime t <> None).

(** The tables that the repository operations build from the empty table,
    the partial inputs of [updateTrade] being taken among [allowed]. *)
Inductive reachable (allowed : UpdateTrade.t -> Prop) : Table -> Prop :=
| reach_empty : reachable allowed []
| reach_create now newId userId trade db :
    reachable allowed db ->
    reachable allowed (snd (createTrade now newId userId trade db))
| reach_update now tradeId userId trade db :
    allowed trade ->
    reachable allowed db ->
    reachable allowed (snd (updateTrade now tradeId userId trade db))
| reach_delete tradeId userId db :
    reachable allowed db ->
    reachable allowed (deleteTrade tradeId userId db).

(** Any partial input. *)
Definition anyUpdate (trade : UpdateTrade.t) : Prop := True.

(** The partial input carries both prices itself. *)
Definition suppliesBothPrices (trade : UpdateTrade.t) : Prop :=
  (exists entry, UpdateTrade.entryPrice trade = Some entry)
  /\ (exists exit, UpdateTrade.exitPrice trade = value exit).

(** The partial input has none of the four closing fields. *)
Definition leavesClosingFields (trade : UpdateTrade.t) : Prop :=
  UpdateTrade.exitPrice trade = undefined
  /\ UpdateTrade.pnl trade = undefined
  /\ UpdateTrade.status trade = None
  /\ UpdateTrade.exitTime trade = undefined.

(** A partial input that closes a trade in full or leaves its closing
    fields alone. *)
Definition closesOrLeaves (trade : UpdateTrade.t) : Prop :=
  suppliesBothPrices trade \/ leavesClosingFields trade.

(** The rows of one user. *)
Definition rowsOf (userId : string) (db : Table) : Table :=
  filter (ownedBy userId) db.

(** The closed trades of one user. *)
Definition closedTradesOf (userId : string) (db : Table) : list Trade.t :=
  filter isClosed (rowsOf userId db).

(** A trade with a profit: its profit and loss is set and positive. *)
Definition hasProfit (t : Trade.t) : bool :=
  match Trade.pnl t with
  | Some p => 0 <? p
  | None => false
  end.



(** The profit and loss that [updateTrade] derives from a partial input
    carrying the prices [entry] and [exit], in hundredths. *)
Definition updatePnl (trade : UpdateTrade.t) (entry exit : decimal) : decimal :=
  (if isLong (UpdateTrade.type trade) then exit - entry else entry - exit)
  * orZero (UpdateTrade.quantity trade).

(** A row closed by an update carrying [entry] and [exit] at time [now]. *)
Definition closedBy (trade : UpdateTrade.t) (entry exit : decimal)
    (now : timestamp) (t : Trade.t) : Prop :=
  Trade.pnl t = Some (updatePnl trade entry exit)
  /\ Trade.status t = "closed"%string
  /\ Trade.exitTime t = Some now
  /\ Trade.exitPrice t = Some exit
  /\ Trade.entryPrice t = entry.

(** No row of the table has the identifier [tradeId] and the owner
    [userId]. *)
Definition noMatch (tradeId userId : string) (db : Table) : Prop :=
  forall t,
    In t db -> ~ (Trade.id t = tradeId /\ Trade.userId t = userId).

(** Every trade of the list belongs to [userId]. *)
Definition onlyRowsOf (userId : string) (l : list Trade.t) : Prop :=
  Forall (fun t => Trade.userId t = userId) l.

(** ** Sample data *)

Module Sample.
Local Open Scope string_scope.

(** A long position bought at 100.00 and sold at 110.00, 5 units. *)
Definition longClosed : InsertTrade.t :=
  InsertTrade.mk "AAPL" "long" 5 10000 (value 11000) undefined None
                 undefined undefined undefined.

(** A short position sold at 100.00 and bought back at 90.00, 5 units. *)
Definition shortClosed : InsertTrade.t :=
  InsertTrade.mk "AAPL" "short" 5 10000 (value 9000) undefined None
                 undefined undefined undefined.

(** A short position that lost: bought back at 120.00. *)
Definition shortLost : InsertTrade.t :=
  InsertTrade.mk "AAPL" "short" 5 10000 (value 12000) undefined None
                 undefined undefined undefined.

(** A long position still open. *)
Definition longOpen : InsertTrade.t :=
  InsertTrade.mk "AAPL" "long" 5 10000 undefined undefined None
                 undefined undefined undefined.

(** The partial input [{ exitPrice: "110.00" }]. *)
Definition exitOnly : UpdateTrade.t :=
  UpdateTrade.mk None None None None (value 11000) undefined None
                 undefined undefined undefined.

(** The partial input [{ entryPrice: "100.00", exitPrice: "110.00" }]. *)
Definition bothPrices : UpdateTrade.t :=
  UpdateTrade.mk None None None (Some 10000) (value 11000) undefined None
                 undefined undefined undefined.

(** The partial input
    [{ type: "long", quantity: 5, entryPrice: "100.00",
       exitPrice: "110.00" }]. *)
Definition fullClose : UpdateTrade.t :=
  UpdateTrade.mk None (Some "long") (Some 5) (Some 10000) (value 11000)
                 undefined None undefined undefined undefined.

(** The table after alice opened one long position at time 1000. *)
Definition oneOpen : Table :=
  snd (createTrade 1000 "t1" "alice" longOpen []).

(** The table after alice recorded two winning trades and a losing one,
    and bob one winning trade. *)
Definition threeClosed : Table :=
  snd (createTrade 4000 "t4" "bob" longClosed
    (snd (createTrade 3000 "t3" "alice" shortLost
      (snd (createTrade 2000 "t2" "alice" shortClosed
        (snd (createTrade 1000 "t1" "alice" longClosed []))))))).
End Sample.

(** * The rest of the repository *)

(** ** User operations *)

(** A row of [users] ([typeof users.$inferSelect]). *)
Module User.
Record t : Type := mk {
  id : string;
  email : option string;
  firstName : option string;
  lastName : option string;
  profileImageUrl : option string;
  createdAt : option timestamp;
  updatedAt : option timestamp
}.
End User.

(** [typeof users.$inferInsert]: the primary key has a default, the other
    columns are nullable. *)
Module UpsertUser.
Record t : Type := mk {
  id : option string;
  email : optional string;
  firstName : optional string;
  lastName : optional string;
  profileImageUrl : optional string;
  createdAt : optional timestamp;
  updatedAt : optional timestamp
}.
End UpsertUser.

(** The table of users. *)
Definition Users := list User.t.

(** [eq(users.id, id)] *)
Definition hasId (id : string) (u : User.t) : bool :=
  (User.id u =? id)%string.

(** The result is the first selected row, [None] for [undefined]. *)
Definition getUser (id : string) (db : Users) : option User.t :=
  hd_error (filter (hasId id) db).

(** [insert(users).values(userData)] when no row has the identifier. *)
Definition insertUser (now : timestamp) (id : string)
    (userData : UpsertUser.t) : User.t :=
  {| User.id := id;
     User.email := inserted (UpsertUser.email userData);
     User.firstName := inserted (UpsertUser.firstName userData);
     User.lastName := inserted (UpsertUser.lastName userData);
     User.profileImageUrl := inserted (UpsertUser.profileImageUrl userData);
     User.createdAt := insertedOr now (UpsertUser.createdAt userData);
     User.updatedAt := insertedOr now (UpsertUser.updatedAt userData) |}.

(** [set: { ...userData, updatedAt: new Date() }] on the row in conflict;
    the [id] of [userData], when it has one, is the one of the row. *)
Definition setUser (now : timestamp) (userData : UpsertUser.t) (u : User.t)
  : User.t :=
  {| User.id := User.id u;
     User.email := assigned (UpsertUser.email userData) (User.email u);
     User.firstName :=
       assigned (UpsertUser.firstName userData) (User.firstName u);
     User.lastName :=
       assigned (UpsertUser.lastName userData) (User.lastName u);
     User.profileImageUrl :=
       assigned (UpsertUser.profileImageUrl userData)
                (User.profileImageUrl u);
     User.createdAt :=
       assigned (UpsertUser.createdAt userData) (User.createdAt u);
     User.updatedAt := Some now |}.

(** The identifier the inserted row would get: the one of [userData], or
    the default [gen_random_uuid()]. *)
Definition upsertId (newId : string) (userData : UpsertUser.t) : string :=
  match UpsertUser.id userData with
  | Some id => id
  | None => newId
  end.

(** [insert ... onConflictDoUpdate({ target: users.id, ... }).returning()];
    the result is the first returned row.  The unique constraint on [email]
    belongs to the store and is not modelled. *)
Definition upsertUser (now : timestamp) (newId : string)
    (userData : UpsertUser.t) (db : Users) : option User.t * Users :=
  let id := upsertId newId userData in
  if existsb (hasId id) db
  then
    (hd_error (map (setUser now userData) (filter (hasId id) db)),
     map (fun u => if hasId id u then setUser now userData u else u) db)
  else
    let user := insertUser now id userData in
    (Some user, db ++ [user]).

(** ** Routes *)

(** A thrown value, as the [catch] clauses look at it:
    [error instanceof Error] and [error.name]. *)
Record Thrown : Type := {
  instanceofError : bool;
  errorName : string
}.

(** What a handler passes to [res.json] or [res.send]. *)
Inductive Payload : Type :=
| userJson (user : option User.t)
| statsJson (stats : TradingStats)
| tradeJson (trade : option Trade.t)
| messageJson (message : string)
| invalidJson (message : string) (errors : Thrown)
| noContent.

Record Response : Type := {
  statusCode : nat;
  payload : Payload
}.

(** [error instanceof Error && error.name === 'ZodError'] *)
Definition isZodError (error : Thrown) : bool :=
  instanceofError error && (errorName error =? "ZodError")%string.

(** The handlers of [registerRoutes] behind [isAuthenticated]: [userId] is
    [req.user.claims.sub], [tradeId] is [req.params.id], [body] is
    [req.body].  The [parse] functions of the two schemas belong to the
    validation library: they return the validated input or throw. *)
Section Routes.

Variable Body : Type.
Variable insertTradeSchema_parse : Body -> Thrown + InsertTrade.t.
Variable updateTradeSchema_parse : Body -> Thrown + UpdateTrade.t.


(** [app.get('/api/trading/stats', ...)] *)
Definition get_trading_stats (tz : Z) (now : timestamp) (userId : string)
    (db : Table) : Response :=
  {| statusCode := 200;
     payload := statsJson (getTradingStats tz now userId db) |}.

(** [app.post('/api/trades', ...)] *)
Definition post_trades (now : timestamp) (newId : string) (userId : string)
    (body : Body) (db : Table) : Response * Table :=
  match insertTradeSchema_parse body with
  | inr validatedTrade =>
      let (trade, db') := createTrade now newId userId validatedTrade db in
      ({| statusCode := 201; payload := tradeJson (Some trade) |}, db')
  | inl error =>
      (if isZodError error
       then {| statusCode := 400;
               payload := invalidJson "Invalid trade data" error |}
       else {| statusCode := 500;
               payload := messageJson "Failed to create trade" |},
       db)
  end.

(** [app.patch('/api/trades/:id', ...)] *)
Definition patch_trade (now : timestamp) (userId tradeId : string)
    (body : Body) (db : Table) : Response * Table :=
  match updateTradeSchema_parse body with
  | inr validatedUpdate =>
      let (trade, db') := updateTrade now tradeId userId validatedUpdate db in
      ({| statusCode := 200; payload := tradeJson trade |}, db')
  | inl error =>
      (if isZodError error
       then {| statusCode := 400;
               payload := invalidJson "Invalid trade data" error |}
       else {| statusCode := 500;
               payload := messageJson "Failed to update trade" |},
       db)
  end.

(** [app.delete('/api/trades/:id', ...)] *)
Definition delete_trade (userId tradeId : string) (db : Table)
  : Response * Table :=
  ({| statusCode := 204; payload := noContent |},
   deleteTrade tradeId userId db).

End Routes.

(** ** Further notions *)

(** [a] stands before [b] in descending order of [createdAt]. *)
Definition newer (a b : Trade.t) : Prop := newerOrSame a b = true.

(** The identifiers of the table are pairwise distinct (the primary key). *)
Definition uniqueIds (db : Table) : Prop := NoDup (map Trade.id db).


(** [createdAt] lies in [[startDate, endDate]]. *)
Definition createdWithin (startDate endDate : timestamp) (t : Trade.t)
  : Prop :=
  exists c,
    Trade.createdAt t = Some c /\ startDate <= c <= endDate.


(** ** More sample data *)

Module Sample2.
Local Open Scope string_scope.

(** The claims of a first sign-in. *)
Definition aliceClaims : UpsertUser.t :=
  UpsertUser.mk (Some "alice") (value "alice@example.com") (value "Alice")
                undefined undefined undefined undefined.

(** The claims of a later sign-in, without an email. *)
Definition aliceLater : UpsertUser.t :=
  UpsertUser.mk (Some "alice") undefined (value "Alicia") undefined
                undefined undefined undefined.

Definition bobClaims : UpsertUser.t :=
  UpsertUser.mk (Some "bob") null (value "Bob") undefined undefined
                undefined undefined.

(** The users after alice and bob signed in. *)
Definition twoUsers : Users :=
  snd (upsertUser 200 "u2" bobClaims
    (snd (upsertUser 100 "u1" aliceClaims []))).

(** The error that a schema throws. *)
Definition zodError : Thrown :=
  {| instanceofError := true; errorName := "ZodError" |}.


Definition parseUpdate (body : option InsertTrade.t)
  : Thrown + UpdateTrade.t :=
  match body with
  | Some trade =>
      inr (UpdateTrade.mk (Some (InsertTrade.symbol trade))
             (Some (InsertTrade.type trade))
             (Some (InsertTrade.quantity trade))
             (Some (InsertTrade.entryPrice trade))
             (InsertTrade.exitPrice trade) undefined None undefined
             undefined undefined)
  | None => inl zodError
  end.


End Sample2.

(** * Properties *)

(** ** Arithmetic of decimals *)

Lemma Qfloor_half (z : Z) : Qfloor (inject_Z z + (1 # 2)) = z.
Proof.
  unfold Qfloor, Qplus, inject_Z; cbn.
  replace (z * 2 + 1) with (1 + z * 2) by ring.
  rewrite Z.div_add by discriminate.
  reflexivity.
Qed.

Lemma toDecimal_cents (x : Q) (z : Z) : (x == z # 100)%Q -> toDecimal x = z.
Proof.
  intros Hx. unfold toDecimal.
  destruct (Qle_bool 0 x).
  - assert (E : (x * 100 + (1 # 2) == inject_Z z + (1 # 2))%Q).
    { rewrite Hx. unfold Qeq, Qplus, Qmult, inject_Z; cbn. ring. }
    rewrite E. apply Qfloor_half.
  - assert (E : (- x * 100 + (1 # 2) == inject_Z (- z) + (1 # 2))%Q).
    { rewrite Hx. unfold Qeq, Qplus, Qmult, Qopp, inject_Z; cbn. ring. }
    rewrite E, Qfloor_half. apply Z.opp_involutive.
Qed.

Lemma pnl_cents (a b q : Z) :
  ((parseFloat a - parseFloat b) * inject_Z q == ((a - b) * q) # 100)%Q.
Proof.
  unfold parseFloat, Qeq, Qminus, Qplus, Qopp, Qmult, inject_Z; cbn. ring.
Qed.

Lemma toDecimal_pnl (a b q : Z) :
  toDecimal ((parseFloat a - parseFloat b) * inject_Z q)%Q = (a - b) * q.
Proof. apply toDecimal_cents, pnl_cents. Qed.

(** ** Creating a trade *)



(** ** Updating a trade *)

Lemma isTrade_setRow now data tradeId userId t :
  isTrade tradeId userId (setRow now data t) = isTrade tradeId userId t.
Proof. reflexivity. Qed.

Lemma updateTrade_returns now tradeId userId trade db t :
  In t db ->
  isTrade tradeId userId t = true ->
  exists t0,
    In t0 db /\ isTrade tradeId userId t0 = true
    /\ fst (updateTrade now tradeId userId trade db)
       = Some (setRow now (updateData now trade) t0).
Proof.
  unfold updateTrade; cbn [fst].
  induction db as [|h db IH]; intros Hin Hm; [destruct Hin|].
  cbn [filter]. destruct (isTrade tradeId userId h) eqn:Hh.
  - exists h. cbn. auto.
  - destruct Hin as [->|Hin]; [congruence|].
    destruct (IH Hin Hm) as (t0 & Hin0 & Hm0 & Hr).
    exists t0. cbn. auto.
Qed.


Lemma updateTrade_row_in now tradeId userId trade db t :
  In t db ->
  isTrade tradeId userId t = true ->
  In (setRow now (updateData now trade) t)
     (snd (updateTrade now tradeId userId trade db)).
Proof.
  unfold updateTrade; cbn [snd]. intros Hin Hm.
  apply in_map_iff. exists t. now rewrite Hm.
Qed.

Lemma setRow_closedBy now trade entry exit t :
  UpdateTrade.entryPrice trade = Some entry ->
  UpdateTrade.exitPrice trade = value exit ->
  closedBy trade entry exit now (setRow now (updateData now trade) t).
Proof.
  intros He Hx. unfold closedBy, updatePnl, updateData, setRow.
  rewrite He, Hx. cbn.
  destruct (isLong (UpdateTrade.type trade));
    rewrite toDecimal_pnl; repeat split.
Qed.




(** C10: when the partial input carries both prices and no quantity,
    [updateTrade] computes the profit and loss with quantity 0: the
    matching trade is closed with a profit and loss of 0, and its stored
    quantity, which is left as it was, plays no part. *)
Theorem updateTrade_without_quantity :
  forall now tradeId userId trade db t entry exit,
    UpdateTrade.entryPrice trade = Some entry ->
    UpdateTrade.exitPrice trade = value exit ->
    UpdateTrade.quantity trade = None ->
    In t db ->
    isTrade tradeId userId t = true ->
    let t' := setRow now (updateData now trade) t in
    (exists r,
        fst (updateTrade now tradeId userId trade db) = Some r
        /\ Trade.pnl r = Some 0
        /\ Trade.status r = "closed"%string)
    /\ In t' (snd (updateTrade now tradeId userId trade db))
    /\ Trade.pnl t' = Some 0
    /\ Trade.status t' = "closed"%string
    /\ Trade.exitTime t' = Some now
    /\ Trade.quantity t' = Trade.quantity t.
Proof.
  intros now tradeId userId trade db t entry exit He Hx Hq Hin Hm t'.
  assert (Hzero : updatePnl trade entry exit = 0).
  { unfold updatePnl. rewrite Hq. apply Z.mul_0_r. }
  split; [|split].
  - destruct (updateTrade_returns now tradeId userId trade db t Hin Hm)
      as (t0 & _ & _ & Hr).
    destruct (setRow_closedBy now trade entry exit t0 He Hx)
      as (Hp & Hs & _).
    eexists; split; [exact Hr|]. rewrite Hp, Hzero. auto.
  - now apply updateTrade_row_in.
  - destruct (setRow_closedBy now trade entry exit t He Hx)
      as (Hp & Hs & Ht & _).
    subst t'. rewrite Hp, Hzero. repeat split; auto.
    unfold setRow, updateData. rewrite He, Hx. cbn. now rewrite Hq.
Qed.

Lemma updateTrade_without_quantity_witness :
  let t := fst (createTrade 1000 "t1" "alice" Sample.longOpen []) in
  let t' := setRow 2000 (updateData 2000 Sample.bothPrices) t in
  Trade.quantity t = 5
  /\ In t' (snd (updateTrade 2000 "t1" "alice" Sample.bothPrices
                             Sample.oneOpen))
  /\ Trade.pnl t' = Some 0.
Proof.
  intros t t'. split; [reflexivity|].
  assert (Hin : In t Sample.oneOpen) by (simpl; left; reflexivity).
  destruct (updateTrade_without_quantity
              2000 "t1" "alice" Sample.bothPrices Sample.oneOpen t
              10000 11000 eq_refl eq_refl eq_refl Hin eq_refl)
    as (_ & Hrow & Hpnl & _).
  split; [exact Hrow | exact Hpnl].
Defined.

(** ** Operations that match no trade *)

Lemma noMatch_isTrade tradeId userId db :
  noMatch tradeId userId db ->
  forall t, In t db -> isTrade tradeId userId t = false.
Proof.
  intros Hno t Hin. unfold isTrade, ownedBy.
  destruct (Trade.id t =? tradeId)%string eqn:Hid; [|reflexivity].
  destruct (Trade.userId t =? userId)%string eqn:Hu; [|reflexivity].
  apply String.eqb_eq in Hid, Hu. destruct (Hno t Hin). auto.
Qed.

Lemma filter_none {A : Type} (p : A -> bool) (l : list A) :
  (forall a, In a l -> p a = false) -> filter p l = [].
Proof.
  induction l as [|h l IH]; intros H; [reflexivity|].
  cbn. rewrite (H h) by (left; reflexivity).
  apply IH. intros a Ha. apply H. now right.
Qed.

Lemma filter_all {A : Type} (p : A -> bool) (l : list A) :
  (forall a, In a l -> p a = true) -> filter p l = l.
Proof.
  induction l as [|h l IH]; intros H; [reflexivity|].
  cbn. rewrite (H h) by (left; reflexivity).
  f_equal. apply IH. intros a Ha. apply H. now right.
Qed.





(** ** The four facts of a closed trade *)

Lemma createTrade_closedTogether now newId userId trade db :
  closedTogether (fst (createTrade now newId userId trade db)).
Proof.
  unfold closedTogether, createTrade; cbn.
  destruct (InsertTrade.exitPrice trade); cbn;
    [| |destruct (InsertTrade.type trade =? "long")%string];
    repeat split; intros H; try discriminate; try congruence.
Qed.

Lemma closedBy_closedTogether trade entry exit now t :
  closedBy trade entry exit now t -> closedTogether t.
Proof.
  intros (Hp & Hs & Ht & Hx & _). unfold closedTogether.
  rewrite Hp, Hs, Ht, Hx. repeat split; intros _; congruence.
Qed.

Lemma setRow_closedTogether now trade t :
  closesOrLeaves trade ->
  closedTogether t ->
  closedTogether (setRow now (updateData now trade) t).
Proof.
  intros [[[entry He] [exit Hx]] | (Hx & Hp & Hs & Ht)] Hinv.
  - apply (closedBy_closedTogether trade entry exit now).
    now apply setRow_closedBy.
  - unfold closedTogether, setRow, updateData in *.
    rewrite Hx. cbn. rewrite Hx, Hp, Hs, Ht. cbn. exact Hinv.
Qed.

(** C2, as amended: in every table built from the empty one by
    [createTrade], [deleteTrade] and those [updateTrade] calls whose partial
    input carries both prices itself or none of exit price, profit and loss,
    status and exit time, each trade has its status [closed] iff its exit
    price is set iff its profit and loss is set iff its exit time is set. *)
Theorem closedTogether_reachable :
  forall db, reachable closesOrLeaves db -> Forall closedTogether db.
Proof.
  intros db Hr. induction Hr as [|now newId userId trade db _ IH
                                  |now tradeId userId trade db Hok _ IH
                                  |tradeId userId db _ IH].
  - constructor.
  - cbn [snd createTrade]. apply Forall_app. split; [exact IH|].
    constructor; [|constructor].
    apply (createTrade_closedTogether now newId userId trade db).
  - cbn [snd updateTrade]. apply Forall_map.
    revert IH. apply Forall_impl. intros t Ht.
    destruct (isTrade tradeId userId t); [|exact Ht].
    now apply setRow_closedTogether.
  - unfold deleteTrade. apply Forall_forall. intros t Hin.
    apply filter_In in Hin. destruct Hin as [Hin _].
    revert t Hin. now apply Forall_forall.
Qed.

Lemma closedTogether_reachable_witness :
  Forall closedTogether
    (snd (updateTrade 2000 "t1" "alice" Sample.fullClose Sample.oneOpen)).
Proof.
  apply closedTogether_reachable.
  apply reach_update.
  - left. split; [exists 10000 | exists 11000]; reflexivity.
  - apply (reach_create closesOrLeaves 1000 "t1" "alice" Sample.longOpen []).
    apply reach_empty.
Defined.

(** C2, as stated, fails: after [createTrade] without an exit price and an
    [updateTrade] with the exit price alone, the trade has an exit price
    while its status is still [open]. *)
Lemma exit_only_update_breaks_closedTogether :
  let db := snd (updateTrade 2000 "t1" "alice" Sample.exitOnly
                             Sample.oneOpen) in
  reachable anyUpdate db
  /\ (exists t,
         In t db
         /\ Trade.exitPrice t = Some 11000
         /\ Trade.status t = "open"%string)
  /\ ~ Forall closedTogether db.
Proof.
  intros db. split; [|split].
  - apply reach_update; [exact I|].
    apply (reach_create anyUpdate 1000 "t1" "alice" Sample.longOpen []).
    apply reach_empty.
  - eexists. split; [left; reflexivity|]. split; reflexivity.
  - intros H. inversion H as [|t l [Hs _] _]; subst.
    cbn in Hs. assert (Hc : Some 11000 <> @None decimal) by discriminate.
    apply Hs in Hc. discriminate Hc.
Qed.

(** ** Scoping by owner *)

Lemma filter_within {A : Type} (p q : A -> bool) (l : list A) :
  (forall a, p a = true -> q a = true) ->
  filter p (filter q l) = filter p l.
Proof.
  intros Hpq. induction l as [|h l IH]; [reflexivity|].
  cbn. destruct (q h) eqn:Hq; cbn.
  - now rewrite IH.
  - destruct (p h) eqn:Hp; [|exact IH].
    apply Hpq in Hp. congruence.
Qed.

Lemma filter_swap {A : Type} (p q : A -> bool) (l : list A) :
  filter p (filter q l) = filter q (filter p l).
Proof.
  induction l as [|h l IH]; [reflexivity|].
  cbn. destruct (q h) eqn:Hq, (p h) eqn:Hp; cbn;
    rewrite ?Hq, ?Hp, IH; reflexivity.
Qed.

Lemma filter_map_same {A : Type} (p : A -> bool) (f : A -> A) (l : list A) :
  (forall a, p (f a) = p a) ->
  filter p (map f l) = map f (filter p l).
Proof.
  intros Hpf. induction l as [|h l IH]; [reflexivity|].
  cbn. rewrite Hpf. destruct (p h); cbn; now rewrite IH.
Qed.

Lemma ownedBy_true userId t :
  ownedBy userId t = true <-> Trade.userId t = userId.
Proof. unfold ownedBy. apply String.eqb_eq. Qed.

Lemma ownedBy_and_l userId (q : Trade.t -> bool) t :
  ownedBy userId t && q t = true -> ownedBy userId t = true.
Proof. intros H. apply andb_true_iff in H. tauto. Qed.

Lemma isTrade_ownedBy tradeId userId t :
  isTrade tradeId userId t = true -> ownedBy userId t = true.
Proof. unfold isTrade. intros H. apply andb_true_iff in H. tauto. Qed.

Lemma ownedBy_other A B t :
  A <> B -> ownedBy A t = true -> ownedBy B t = false.
Proof.
  intros Hne HA. apply ownedBy_true in HA.
  unfold ownedBy. apply String.eqb_neq. congruence.
Qed.

Lemma onlyRowsOf_rowsOf userId db : onlyRowsOf userId (rowsOf userId db).
Proof.
  apply Forall_forall. intros t Hin.
  apply filter_In in Hin. now apply ownedBy_true.
Qed.

Lemma onlyRowsOf_filter userId (q : Trade.t -> bool) db :
  onlyRowsOf userId (filter (fun t => ownedBy userId t && q t) db).
Proof.
  apply Forall_forall. intros t Hin.
  apply filter_In in Hin. destruct Hin as [_ H].
  apply ownedBy_and_l in H. now apply ownedBy_true.
Qed.

Lemma Forall_insertDesc (P : Trade.t -> Prop) t l :
  P t -> Forall P l -> Forall P (insertDesc t l).
Proof.
  intros Ht Hl. induction Hl as [|h l Hh Hl IH]; cbn.
  - constructor; [exact Ht | constructor].
  - destruct (newerOrSame t h); repeat (constructor; auto).
Qed.

Lemma Forall_orderByDesc (P : Trade.t -> Prop) l :
  Forall P l -> Forall P (orderByDesc l).
Proof.
  intros Hl. induction Hl as [|h l Hh Hl IH]; cbn.
  - constructor.
  - now apply Forall_insertDesc.
Qed.

Lemma Forall_take {A : Type} (P : A -> Prop) (n : nat) (l : list A) :
  Forall P l -> Forall P (firstn n l).
Proof.
  intros Hl. revert n. induction Hl as [|h l Hh Hl IH]; intros [|n]; cbn;
    constructor; auto.
Qed.

Lemma rowsOf_update_other A B now tradeId trade db :
  A <> B ->
  rowsOf B (snd (updateTrade now tradeId A trade db)) = rowsOf B db.
Proof.
  intros Hne. unfold rowsOf, updateTrade; cbn [snd].
  induction db as [|h db IH]; [reflexivity|].
  cbn [map filter]. rewrite IH.
  destruct (isTrade tradeId A h) eqn:Hm; [|reflexivity].
  apply isTrade_ownedBy in Hm.
  assert (Hs : ownedBy B (setRow now (updateData now trade) h) = ownedBy B h)
    by reflexivity.
  rewrite Hs. now rewrite (ownedBy_other A B h Hne Hm).
Qed.

Lemma rowsOf_delete_other A B tradeId db :
  A <> B ->
  rowsOf B (deleteTrade tradeId A db) = rowsOf B db.
Proof.
  intros Hne. unfold rowsOf, deleteTrade.
  apply filter_within.
  intros t HB. destruct (isTrade tradeId A t) eqn:Hm; [|reflexivity].
  apply isTrade_ownedBy in Hm.
  rewrite (ownedBy_other A B t Hne Hm) in HB. discriminate.
Qed.

Lemma rowsOf_create_other A B now newId trade db :
  A <> B ->
  rowsOf B (snd (createTrade now newId A trade db)) = rowsOf B db.
Proof.
  intros Hne. unfold rowsOf, createTrade; cbn [snd].
  rewrite filter_app. cbn [filter].
  assert (Hs : forall t : Trade.t, Trade.userId t = A -> ownedBy B t = false).
  { intros t Ht. apply (ownedBy_other A B t Hne). now apply ownedBy_true. }
  rewrite Hs by reflexivity. apply app_nil_r.
Qed.

Lemma rowsOf_create_own A now newId trade db :
  rowsOf A (snd (createTrade now newId A trade db))
  = snd (createTrade now newId A trade (rowsOf A db)).
Proof.
  unfold rowsOf, createTrade; cbn [snd].
  rewrite filter_app. cbn [filter].
  assert (Hs : forall t : Trade.t, Trade.userId t = A -> ownedBy A t = true).
  { intros t Ht. now apply ownedBy_true. }
  now rewrite Hs by reflexivity.
Qed.

Lemma updateTrade_rowsOf A now tradeId trade db :
  updateTrade now tradeId A trade (rowsOf A db)
  = (fst (updateTrade now tradeId A trade db),
     rowsOf A (snd (updateTrade now tradeId A trade db))).
Proof.
  unfold updateTrade, rowsOf; cbn [fst snd]. f_equal.
  - rewrite (filter_within (isTrade tradeId A) (ownedBy A)); [reflexivity|].
    intros t. apply isTrade_ownedBy.
  - symmetry. apply filter_map_same. intros t.
    now destruct (isTrade tradeId A t).
Qed.

Lemma getTradingStats_rowsOf tz now A db :
  getTradingStats tz now A (rowsOf A db) = getTradingStats tz now A db.
Proof.
  unfold getTradingStats, count, rowsOf.
  rewrite !(filter_within _ (ownedBy A) db); [reflexivity| | | |];
    intros t; try apply ownedBy_and_l; auto.
Qed.

Lemma updateTrade_result_isTrade now tradeId userId trade db r :
  fst (updateTrade now tradeId userId trade db) = Some r ->
  isTrade tradeId userId r = true.
Proof.
  unfold updateTrade; cbn [fst].
  destruct (filter (isTrade tradeId userId) db) as [|t0 l] eqn:E; cbn;
    intros H; [discriminate|].
  injection H as <-. rewrite isTrade_setRow.
  assert (Hin : In t0 (filter (isTrade tradeId userId) db))
    by (rewrite E; now left).
  now apply filter_In in Hin.
Qed.

Lemma In_rowsOf userId db t :
  In t db -> Trade.userId t = userId -> In t (rowsOf userId db).
Proof.
  intros Hin Hu. apply filter_In. split; [exact Hin|].
  now apply ownedBy_true.
Qed.

Lemma rowsOf_In userId db t : In t (rowsOf userId db) -> In t db.
Proof. intros Hin. now apply filter_In in Hin. Qed.

(** C4: an operation invoked for user [A] reads only the rows of [A] (its
    result is the same on the table cut down to the rows of [A], and every
    trade it returns belongs to [A]) and leaves the rows of any other user
    [B] as they were, also when it is handed the identifier of a trade of
    [B]. *)
Theorem owner_scoping :
  forall (A B : string) (db : Table),
    A <> B ->
    (forall limit,
        getTrades A limit db = getTrades A limit (rowsOf A db)
        /\ onlyRowsOf A (getTrades A limit db))
    /\ (forall startDate endDate,
          getTradesByDateRange A startDate endDate db
          = getTradesByDateRange A startDate endDate (rowsOf A db)
          /\ onlyRowsOf A (getTradesByDateRange A startDate endDate db))
    /\ (forall tz now,
          getTradingStats tz now A db = getTradingStats tz now A (rowsOf A db))
    /\ (forall now newId trade,
          let r := createTrade now newId A trade db in
          let r' := createTrade now newId A trade (rowsOf A db) in
          Trade.userId (fst r) = A
          /\ fst r = fst r'
          /\ rowsOf A (snd r) = snd r'
          /\ rowsOf B (snd r) = rowsOf B db)
    /\ (forall now tradeId trade,
          let r := updateTrade now tradeId A trade db in
          let r' := updateTrade now tradeId A trade (rowsOf A db) in
          (forall t, fst r = Some t -> Trade.userId t = A)
          /\ fst r = fst r'
          /\ rowsOf A (snd r) = snd r'
          /\ rowsOf B (snd r) = rowsOf B db)
    /\ (forall tradeId,
          rowsOf A (deleteTrade tradeId A db)
          = deleteTrade tradeId A (rowsOf A db)
          /\ rowsOf B (deleteTrade tradeId A db) = rowsOf B db)
    /\ (forall b,
          In b db ->
          Trade.userId b = B ->
          (forall now trade,
              In b (snd (updateTrade now (Trade.id b) A trade db)))
          /\ In b (deleteTrade (Trade.id b) A db)).
Proof.
  intros A B db Hne. repeat apply conj.
  - intros limit. split.
    + unfold getTrades, rowsOf.
      now rewrite (filter_within (ownedBy A) (ownedBy A)).
    + unfold getTrades. apply Forall_take, Forall_orderByDesc.
      apply onlyRowsOf_rowsOf.
  - intros startDate endDate. split.
    + unfold getTradesByDateRange, rowsOf.
      rewrite (filter_within _ (ownedBy A) db); [reflexivity|].
      intros t. apply ownedBy_and_l.
    + unfold getTradesByDateRange. apply Forall_orderByDesc.
      apply onlyRowsOf_filter.
  - intros tz now. symmetry. apply getTradingStats_rowsOf.
  - intros now newId trade r r'. subst r r'. repeat apply conj.
    + reflexivity.
    + reflexivity.
    + apply rowsOf_create_own.
    + now apply rowsOf_create_other.
  - intros now tradeId trade r r'. subst r r'.
    rewrite updateTrade_rowsOf. cbn [fst snd]. repeat apply conj.
    + intros t Ht. apply updateTrade_result_isTrade in Ht.
      apply isTrade_ownedBy in Ht. now apply ownedBy_true.
    + reflexivity.
    + reflexivity.
    + now apply rowsOf_update_other.
  - intros tradeId. split.
    + unfold rowsOf, deleteTrade. apply filter_swap.
    + now apply rowsOf_delete_other.
  - intros b Hin Hb. split.
    + intros now trade. apply (rowsOf_In B).
      rewrite (rowsOf_update_other A B) by exact Hne.
      now apply In_rowsOf.
    + apply (rowsOf_In B).
      rewrite (rowsOf_delete_other A B) by exact Hne.
      now apply In_rowsOf.
Qed.

Lemma owner_scoping_witness :
  rowsOf "bob" (deleteTrade "t4" "alice" Sample.threeClosed)
  = rowsOf "bob" Sample.threeClosed
  /\ rowsOf "bob"
       (snd (updateTrade 5000 "t4" "alice" Sample.fullClose
                         Sample.threeClosed))
     = rowsOf "bob" Sample.threeClosed.
Proof.
  assert (Hne : "alice"%string <> "bob"%string) by discriminate.
  destruct (owner_scoping "alice" "bob" Sample.threeClosed Hne)
    as (_ & _ & _ & _ & Hupd & Hdel & _).
  split.
  - exact (proj2 (Hdel "t4"%string)).
  - exact (proj2 (proj2 (proj2 (Hupd 5000 "t4"%string Sample.fullClose)))).
Defined.

(** ** Rounding, win rate and total *)

Lemma round2_cents_form (x : Q) : (round2 x == Math_round (x * 100) # 100)%Q.
Proof. unfold round2. symmetry. apply Qmake_Qdiv. Qed.






Lemma isWinning_hasProfit (t : Trade.t) : isWinning t = hasProfit t.
Proof.
  unfold isWinning, hasProfit, parseFloat.
  destruct (Trade.pnl t) as [p|]; [|reflexivity].
  unfold Qle_bool; cbn. rewrite Z.mul_1_r. symmetry. apply Z.ltb_antisym.
Qed.

Lemma filter_andb {A : Type} (p q : A -> bool) (l : list A) :
  filter (fun a => p a && q a) l = filter q (filter p l).
Proof.
  induction l as [|h l IH]; [reflexivity|].
  cbn. destruct (p h); cbn; [destruct (q h)|]; now rewrite IH.
Qed.

Lemma winRate_unfold tz now userId db :
  winRate (getTradingStats tz now userId db)
  = round2
      (if (0 <? List.length (closedTradesOf userId db))%nat
       then (inject_Z
               (Z.of_nat
                  (List.length (filter hasProfit (closedTradesOf userId db))))
             / inject_Z (Z.of_nat (List.length (closedTradesOf userId db)))
             * 100)%Q
       else 0%Q).
Proof.
  unfold getTradingStats, closedTradesOf, rowsOf; cbn [winRate].
  rewrite filter_andb.
  now rewrite (filter_ext _ _ isWinning_hasProfit).
Qed.






(** ** The day windows *)





(** * Further properties *)

(** ** Listing trades *)

Lemma newerOrSame_total a b : newerOrSame a b = false -> newer b a.
Proof.
  unfold newer, newerOrSame.
  destruct (Trade.createdAt a) as [x|], (Trade.createdAt b) as [y|];
    intros H; try discriminate; try reflexivity.
  apply Z.leb_gt in H. apply Z.leb_le. lia.
Qed.

Lemma newer_trans a b c : newer a b -> newer b c -> newer a c.
Proof.
  unfold newer, newerOrSame.
  destruct (Trade.createdAt a) as [x|], (Trade.createdAt b) as [y|],
    (Trade.createdAt c) as [z|];
    intros H1 H2; try discriminate; try reflexivity.
  apply Z.leb_le in H1, H2. apply Z.leb_le. lia.
Qed.

Lemma insertDesc_sorted t l :
  StronglySorted newer l -> StronglySorted newer (insertDesc t l).
Proof.
  intros Hl. induction Hl as [|h r Hr IH Hh]; cbn.
  - constructor; constructor.
  - destruct (newerOrSame t h) eqn:Hth.
    + constructor; [constructor; assumption|].
      constructor; [exact Hth|].
      revert Hh. apply Forall_impl. intros x Hx.
      now apply (newer_trans t h x).
    + constructor; [exact IH|].
      apply Forall_insertDesc; [|exact Hh].
      now apply newerOrSame_total.
Qed.

Lemma orderByDesc_sorted l : StronglySorted newer (orderByDesc l).
Proof.
  induction l as [|h l IH]; cbn; [constructor|].
  now apply insertDesc_sorted.
Qed.

Lemma insertDesc_perm t l : Permutation (insertDesc t l) (t :: l).
Proof.
  induction l as [|h r IH]; cbn; [reflexivity|].
  destruct (newerOrSame t h); [reflexivity|].
  rewrite IH. apply perm_swap.
Qed.

Lemma orderByDesc_perm l : Permutation (orderByDesc l) l.
Proof.
  induction l as [|h l IH]; cbn; [reflexivity|].
  rewrite insertDesc_perm. now constructor.
Qed.

Lemma orderByDesc_length l : List.length (orderByDesc l) = List.length l.
Proof. apply Permutation_length, orderByDesc_perm. Qed.

Lemma StronglySorted_app_inv {A : Type} (R : A -> A -> Prop) (l1 l2 : list A) :
  StronglySorted R (l1 ++ l2) ->
  StronglySorted R l1
  /\ forall x y, In x l1 -> In y l2 -> R x y.
Proof.
  induction l1 as [|h l1 IH]; cbn; intros Hs.
  - split; [constructor|]. intros x y [].
  - apply StronglySorted_inv in Hs. destruct Hs as [Hs Hh].
    destruct (IH Hs) as [Hs1 Hcross]. split.
    + constructor; [exact Hs1|].
      apply Forall_forall. intros x Hx.
      apply (proj1 (Forall_forall _ _) Hh). apply in_or_app. now left.
    + intros x y [<-|Hx] Hy.
      * apply (proj1 (Forall_forall _ _) Hh). apply in_or_app. now right.
      * now apply Hcross.
Qed.

(** X1: [getTrades] lists the trades newest first, and a trade of the user
    that it leaves out because of the limit is never newer than one that it
    returns. *)
Theorem getTrades_newest_first :
  forall userId limit db,
    StronglySorted newer (getTrades userId limit db)
    /\ (forall t t',
           In t (getTrades userId limit db) ->
           In t' db ->
           Trade.userId t' = userId ->
           ~ In t' (getTrades userId limit db) ->
           newer t t').
Proof.
  intros userId limit db. unfold getTrades.
  set (n := match limit with Some n => n | None => 10%nat end).
  set (l := orderByDesc (filter (ownedBy userId) db)).
  assert (Hs : StronglySorted newer (firstn n l ++ skipn n l)).
  { rewrite firstn_skipn. apply orderByDesc_sorted. }
  apply StronglySorted_app_inv in Hs. destruct Hs as [Hs Hcross].
  split; [exact Hs|].
  intros t t' Ht Hin Hu Hout. apply Hcross; [exact Ht|].
  assert (Hl : In t' l).
  { apply (Permutation_in _ (Permutation_sym (orderByDesc_perm _))).
    now apply In_rowsOf. }
  rewrite <- (firstn_skipn n l) in Hl.
  apply in_app_or in Hl. tauto.
Qed.

(** X2: [getTrades] returns as many trades as the limit allows (10 when no
    limit is given) and the user has; when the limit is not below the
    number of the user's trades, it returns each of them once. *)
Theorem getTrades_length :
  forall userId limit db,
    let n := match limit with Some n => n | None => 10%nat end in
    List.length (getTrades userId limit db)
    = Nat.min n (List.length (rowsOf userId db))
    /\ (List.length (rowsOf userId db) <= n ->
        Permutation (getTrades userId limit db) (rowsOf userId db))%nat.
Proof.
  intros userId limit db n. unfold getTrades. fold n. split.
  - rewrite length_firstn, orderByDesc_length. reflexivity.
  - intros Hle. rewrite firstn_all2.
    + apply orderByDesc_perm.
    + rewrite orderByDesc_length. exact Hle.
Qed.

Lemma getTrades_length_witness :
  Permutation (getTrades "alice" None Sample.threeClosed)
              (rowsOf "alice" Sample.threeClosed).
Proof.
  apply (proj2 (getTrades_length "alice" None Sample.threeClosed)).
  vm_compute. lia.
Defined.

Lemma createdBetween_within startDate endDate t :
  createdBetween startDate endDate t = true
  <-> createdWithin startDate endDate t.
Proof.
  unfold createdBetween, createdWithin.
  destruct (Trade.createdAt t) as [c|]; split.
  - intros H. apply andb_true_iff in H. destruct H as [H1 H2].
    apply Z.leb_le in H1, H2. exists c. auto.
  - intros (c' & Hc & H1 & H2). injection Hc as <-.
    apply andb_true_iff. split; now apply Z.leb_le.
  - discriminate.
  - intros (c' & Hc & _). discriminate.
Qed.

(** X3: [getTradesByDateRange] returns exactly the trades of the user
    created between the two dates, the bounds included, newest first and
    each once; it returns nothing when the end lies before the start. *)
Theorem getTradesByDateRange_exact :
  forall userId startDate endDate db,
    let result := getTradesByDateRange userId startDate endDate db in
    (forall t,
        In t result
        <-> In t db /\ Trade.userId t = userId
            /\ createdWithin startDate endDate t)
    /\ StronglySorted newer result
    /\ Permutation result
         (filter (createdBetween startDate endDate) (rowsOf userId db))
    /\ (endDate < startDate -> result = []).
Proof.
  intros userId startDate endDate db result. subst result.
  unfold getTradesByDateRange.
  assert (Hperm :
    Permutation
      (orderByDesc
         (filter (fun t => ownedBy userId t
                           && createdBetween startDate endDate t) db))
      (filter (createdBetween startDate endDate) (rowsOf userId db))).
  { rewrite orderByDesc_perm, filter_andb. reflexivity. }
  repeat apply conj.
  - intros t. split.
    + intros Hin. apply (Permutation_in _ Hperm) in Hin.
      apply filter_In in Hin. destruct Hin as [Hin Hb].
      apply filter_In in Hin. destruct Hin as [Hin Ho].
      split; [exact Hin|]. split; [now apply ownedBy_true|].
      now apply createdBetween_within.
    + intros (Hin & Hu & Hw).
      apply (Permutation_in _ (Permutation_sym Hperm)).
      apply filter_In. split; [now apply In_rowsOf|].
      now apply createdBetween_within.
  - apply orderByDesc_sorted.
  - exact Hperm.
  - intros Hlt. rewrite filter_none; [reflexivity|].
    intros t _. apply andb_false_iff. right.
    destruct (createdBetween startDate endDate t) eqn:Hb; [|reflexivity].
    apply createdBetween_within in Hb. destruct Hb as (c & _ & H1 & H2). lia.
Qed.

Lemma getTradesByDateRange_exact_witness :
  getTradesByDateRange "alice" 3000 1000 Sample.threeClosed = [].
Proof.
  apply (getTradesByDateRange_exact "alice" 3000 1000 Sample.threeClosed).
  reflexivity.
Defined.

(** ** Statistics and the other operations *)



Lemma round2_range (x : Q) :
  (0 <= x)%Q -> (x <= 100)%Q -> (0 <= round2 x)%Q /\ (round2 x <= 100)%Q.
Proof.
  intros H0 H100. rewrite round2_cents_form. unfold Math_round.
  assert (Hlo : 0 <= Qfloor (x * 100 + (1 # 2))).
  { change 0 with (Qfloor 0). apply Qfloor_resp_le. lra. }
  assert (Hhi : Qfloor (x * 100 + (1 # 2)) <= 10000).
  { rewrite <- (Qfloor_half 10000). apply Qfloor_resp_le.
    change (inject_Z 10000) with (10000 # 1)%Q. lra. }
  set (k := Qfloor (x * 100 + (1 # 2))) in *. clearbody k.
  unfold Qle; cbn. split; lia.
Qed.

(** X5: the win rate lies between 0 and 100. *)
Theorem winRate_range :
  forall tz now userId db,
    (0 <= winRate (getTradingStats tz now userId db))%Q
    /\ (winRate (getTradingStats tz now userId db) <= 100)%Q.
Proof.
  intros tz now userId db. rewrite winRate_unfold.
  set (closed := closedTradesOf userId db).
  destruct (0 <? List.length closed)%nat eqn:Hn.
  - apply Nat.ltb_lt in Hn.
    pose proof (filter_length_le hasProfit closed) as Hw.
    set (w := inject_Z (Z.of_nat (List.length (filter hasProfit closed)))).
    set (n := inject_Z (Z.of_nat (List.length closed))).
    assert (Hn0 : (0 < n)%Q).
    { subst n. change 0%Q with (inject_Z 0). rewrite <- Zlt_Qlt. lia. }
    assert (Hw0 : (0 <= w)%Q).
    { subst w. change 0%Q with (inject_Z 0). rewrite <- Zle_Qle. lia. }
    assert (Hwn : (w <= n)%Q).
    { subst w n. rewrite <- Zle_Qle. lia. }
    assert (Hq0 : (0 <= w / n)%Q).
    { apply Qle_shift_div_l; [exact Hn0|]. lra. }
    assert (Hq1 : (w / n <= 1)%Q).
    { apply Qle_shift_div_r; [exact Hn0|]. lra. }
    apply round2_range; lra.
  - apply round2_range; lra.
Qed.





Lemma count_map_same (p : Trade.t -> bool) (f : Trade.t -> Trade.t) db :
  (forall t, p (f t) = p t) -> count p (map f db) = count p db.
Proof.
  intros Hpf. unfold count.
  now rewrite (filter_map_same p f db Hpf), length_map.
Qed.

(** X7: [updateTrade] neither adds nor removes a row and changes no
    identifier, owner or creation time; so the three counts of the
    statistics are the same after it, for every user. *)
Theorem updateTrade_keeps_counts :
  forall now tradeId userId trade db,
    let db' := snd (updateTrade now tradeId userId trade db) in
    map (fun t => (Trade.id t, Trade.userId t, Trade.createdAt t)) db'
    = map (fun t => (Trade.id t, Trade.userId t, Trade.createdAt t)) db
    /\ forall tz instant user,
         totalTrades (getTradingStats tz instant user db')
         = totalTrades (getTradingStats tz instant user db)
         /\ todayTrades (getTradingStats tz instant user db')
            = todayTrades (getTradingStats tz instant user db)
         /\ yesterdayTrades (getTradingStats tz instant user db')
            = yesterdayTrades (getTradingStats tz instant user db).
Proof.
  intros now tradeId userId trade db db'. subst db'.
  unfold updateTrade; cbn [snd]. split.
  - rewrite map_map. apply map_ext. intros t.
    now destruct (isTrade tradeId userId t).
  - intros tz instant user. unfold getTradingStats;
      cbn [totalTrades todayTrades yesterdayTrades].
    repeat apply conj; apply count_map_same; intros t;
      now destruct (isTrade tradeId userId t).
Qed.

(** ** Deleting, and updating twice *)

Lemma isTrade_true tradeId userId t :
  isTrade tradeId userId t = true
  <-> Trade.id t = tradeId /\ Trade.userId t = userId.
Proof.
  unfold isTrade, ownedBy. rewrite andb_true_iff, !String.eqb_eq. tauto.
Qed.



(** X9: deleting a trade right after creating it gives back the table as
    it was, when the new identifier was not in use for that user. *)
Theorem createTrade_deleteTrade :
  forall now newId userId trade db,
    noMatch newId userId db ->
    deleteTrade newId userId
      (snd (createTrade now newId userId trade db)) = db.
Proof.
  intros now newId userId trade db Hno.
  unfold createTrade; cbn [snd]. unfold deleteTrade.
  rewrite filter_app. cbn [filter].
  assert (Hm : forall t : Trade.t,
             Trade.id t = newId -> Trade.userId t = userId ->
             isTrade newId userId t = true)
    by (intros t Hi Hu; now apply isTrade_true).
  rewrite Hm by reflexivity. cbn [negb]. rewrite app_nil_r.
  apply filter_all. intros t Hin.
  now rewrite (noMatch_isTrade _ _ _ Hno t Hin).
Qed.

Lemma createTrade_deleteTrade_witness :
  deleteTrade "t5" "alice"
    (snd (createTrade 5000 "t5" "alice" Sample.longOpen Sample.threeClosed))
  = Sample.threeClosed.
Proof.
  apply (createTrade_deleteTrade 5000 "t5" "alice" Sample.longOpen
                                 Sample.threeClosed).
  intros t Hin [Hid Hu]. simpl in Hin.
  destruct Hin as [<-|[<-|[<-|[<-|[]]]]]; discriminate.
Defined.

Lemma assigned_idem {A : Type} (o : optional A) (old : option A) :
  assigned o (assigned o old) = assigned o old.
Proof. now destruct o. Qed.

Lemma assignedNN_idem {A : Type} (o : option A) (old : A) :
  assignedNN o (assignedNN o old) = assignedNN o old.
Proof. now destruct o. Qed.

Lemma setRow_idem now data t :
  setRow now data (setRow now data t) = setRow now data t.
Proof.
  unfold setRow; cbn. now rewrite !assigned_idem, !assignedNN_idem.
Qed.

(** X10: [updateTrade] is idempotent: the same update applied a second
    time at the same instant returns the same record and leaves the table
    as the first left it. *)
Theorem updateTrade_idempotent :
  forall now tradeId userId trade db,
    updateTrade now tradeId userId trade
      (snd (updateTrade now tradeId userId trade db))
    = updateTrade now tradeId userId trade db.
Proof.
  intros now tradeId userId trade db.
  unfold updateTrade; cbn [snd].
  set (data := updateData now trade).
  set (f := fun t => if isTrade tradeId userId t then setRow now data t
                     else t).
  assert (Hm : forall t, isTrade tradeId userId (f t)
                         = isTrade tradeId userId t).
  { intros t. unfold f. now destruct (isTrade tradeId userId t) eqn:E. }
  f_equal.
  - rewrite (filter_map_same _ f db Hm), !map_map. f_equal.
    apply map_ext_in. intros t Hin. apply filter_In in Hin.
    unfold f. rewrite (proj2 Hin). apply setRow_idem.
  - rewrite map_map. apply map_ext. intros t. unfold f.
    destruct (isTrade tradeId userId t) eqn:E.
    + rewrite isTrade_setRow, E. apply setRow_idem.
    + now rewrite E.
Qed.

(** ** The primary key *)

Lemma NoDup_map_filter {A B : Type} (g : A -> B) (p : A -> bool) l :
  NoDup (map g l) -> NoDup (map g (filter p l)).
Proof.
  induction l as [|h l IH]; cbn; intros Hn; [constructor|].
  inversion Hn as [|x r Hnotin Hr]; subst.
  destruct (p h); cbn; [|now apply IH].
  constructor; [|now apply IH].
  intros Hin. apply Hnotin.
  apply in_map_iff in Hin. destruct Hin as (a & Ha & Hin).
  apply in_map_iff. exists a. split; [exact Ha|].
  now apply filter_In in Hin.
Qed.

(** X11: the three mutations keep the identifiers pairwise distinct
    ([createTrade] when the new identifier is not in the table), and in
    such a table at most one trade matches an identifier, so that
    [updateTrade] changes at most one row. *)
Theorem uniqueIds_kept :
  forall db,
    uniqueIds db ->
    (forall now newId userId trade,
        ~ In newId (map Trade.id db) ->
        uniqueIds (snd (createTrade now newId userId trade db)))
    /\ (forall now tradeId userId trade,
          uniqueIds (snd (updateTrade now tradeId userId trade db)))
    /\ (forall tradeId userId, uniqueIds (deleteTrade tradeId userId db))
    /\ (forall tradeId userId,
          (List.length (filter (isTrade tradeId userId) db) <= 1)%nat).
Proof.
  intros db Hu. unfold uniqueIds in *. repeat apply conj.
  - intros now newId userId trade Hfresh.
    unfold createTrade; cbn [snd]. rewrite map_app. cbn [map Trade.id].
    apply NoDup_app_remove_l with (l := []).
    cbn. apply (Permutation_NoDup (l := newId :: map Trade.id db)).
    + apply Permutation_cons_append.
    + now constructor.
  - intros now tradeId userId trade.
    unfold updateTrade; cbn [snd]. rewrite map_map.
    rewrite (map_ext _ Trade.id); [exact Hu|].
    intros t. now destruct (isTrade tradeId userId t).
  - intros tradeId userId. unfold deleteTrade. now apply NoDup_map_filter.
  - intros tradeId userId.
    induction db as [|h db IH]; cbn; [lia|].
    inversion Hu as [|x r Hnotin Hr]; subst.
    destruct (isTrade tradeId userId h) eqn:Hh; [|now apply IH].
    rewrite filter_none; [cbn; lia|].
    intros t Hin. destruct (isTrade tradeId userId t) eqn:Ht; [|reflexivity].
    apply isTrade_true in Hh, Ht. elim Hnotin.
    apply in_map_iff. exists t. split; [|exact Hin].
    destruct Hh, Ht. congruence.
Qed.

Lemma uniqueIds_kept_witness :
  uniqueIds
    (snd (updateTrade 5000 "t1" "alice" Sample.exitOnly Sample.oneOpen)).
Proof.
  assert (Hu : uniqueIds Sample.oneOpen).
  { unfold uniqueIds. simpl. constructor; [intros []|constructor]. }
  destruct (uniqueIds_kept Sample.oneOpen Hu) as (_ & Hupd & _).
  apply Hupd.
Defined.

(** ** The direction of a trade *)





(** ** Users *)


Lemma existsb_hasId_false id db :
  existsb (hasId id) db = false -> filter (hasId id) db = [].
Proof.
  intros H. apply filter_none. intros u Hin.
  destruct (hasId id u) eqn:Hu; [|reflexivity].
  assert (He : existsb (hasId id) db = true)
    by (apply existsb_exists; eauto).
  congruence.
Qed.








(** X16: on a user that is already stored, [upsertUser] keeps the stored
    value of every field that the input leaves out, clears a field that the
    input sets to [null], and stamps [updatedAt] with the time of the call,
    also when the input gives another [updatedAt]. *)
Theorem upsertUser_known_user :
  forall now newId userData db stored,
    getUser (upsertId newId userData) db = Some stored ->
    exists user,
      fst (upsertUser now newId userData db) = Some user
      /\ User.updatedAt user = Some now
      /\ (UpsertUser.email userData = undefined ->
          User.email user = User.email stored)
      /\ (UpsertUser.email userData = null -> User.email user = None)
      /\ (UpsertUser.firstName userData = undefined ->
          User.firstName user = User.firstName stored)
      /\ (UpsertUser.lastName userData = undefined ->
          User.lastName user = User.lastName stored)
      /\ (UpsertUser.profileImageUrl userData = undefined ->
          User.profileImageUrl user = User.profileImageUrl stored)
      /\ (UpsertUser.createdAt userData = undefined ->
          User.createdAt user = User.createdAt stored).
Proof.
  intros now newId userData db stored Hget.
  unfold upsertUser. set (id := upsertId newId userData) in *.
  unfold getUser in Hget.
  destruct (existsb (hasId id) db) eqn:Hex.
  - destruct (filter (hasId id) db) as [|u0 rest] eqn:Hf; [discriminate|].
    injection Hget as ->.
    exists (setUser now userData stored). cbn.
    repeat apply conj; try reflexivity; intros Hv; rewrite Hv; reflexivity.
  - rewrite (existsb_hasId_false id db Hex) in Hget. discriminate.
Qed.

Lemma upsertUser_known_user_witness :
  exists user,
    fst (upsertUser 300 "u3" Sample2.aliceLater Sample2.twoUsers) = Some user
    /\ User.email user = Some "alice@example.com"%string.
Proof.
  destruct (upsertUser_known_user 300 "u3" Sample2.aliceLater
              Sample2.twoUsers
              (insertUser 100 "alice" Sample2.aliceClaims) eq_refl)
    as (user & Hfst & _ & Hemail & _).
  exists user. split; [exact Hfst|].
  rewrite (Hemail eq_refl). reflexivity.
Defined.




(** ** Routes *)







(** X21: whatever the body and the identifier of a request, the three
    routes that write leave the trades of every user other than the
    signed-in one as they were, and a trade in the payload of an answer
    belongs to the signed-in user. *)
Theorem routes_scoping :
  forall (A B : string) (db : Table),
    A <> B ->
    (forall Body parse now newId body,
        let r := post_trades Body parse now newId A body db in
        rowsOf B (snd r) = rowsOf B db
        /\ forall t, payload (fst r) = tradeJson (Some t) ->
                     Trade.userId t = A)
    /\ (forall Body parse now tradeId body,
          let r := patch_trade Body parse now A tradeId body db in
          rowsOf B (snd r) = rowsOf B db
          /\ forall t, payload (fst r) = tradeJson (Some t) ->
                       Trade.userId t = A)
    /\ (forall tradeId,
          rowsOf B (snd (delete_trade A tradeId db)) = rowsOf B db).
Proof.
  intros A B db Hne. split; [|split].
  - intros Body parse now newId body r. subst r. unfold post_trades.
    destruct (parse body) as [error|v].
    + cbn [fst snd]. split; [reflexivity|].
      intros t. destruct (isZodError error); discriminate.
    + pose proof (rowsOf_create_other A B now newId v db Hne) as Hc.
      destruct (createTrade now newId A v db) as [t0 db'] eqn:E.
      cbn [fst snd payload] in *. split; [exact Hc|].
      intros t Ht. injection Ht as <-.
      change t0 with (fst (t0, db')). rewrite <- E. reflexivity.
  - intros Body parse now tradeId body r. subst r. unfold patch_trade.
    destruct (parse body) as [error|v].
    + cbn [fst snd]. split; [reflexivity|].
      intros t. destruct (isZodError error); discriminate.
    + pose proof (rowsOf_update_other A B now tradeId v db Hne) as Hu.
      pose proof (updateTrade_result_isTrade now tradeId A v db) as Hr.
      destruct (updateTrade now tradeId A v db) as [t0 db'] eqn:E.
      cbn [fst snd payload] in *. split; [exact Hu|].
      intros t Ht. injection Ht as ->.
      specialize (Hr t eq_refl). apply isTrade_ownedBy in Hr.
      now apply ownedBy_true.
  - intros tradeId. unfold delete_trade; cbn [snd].
    now apply rowsOf_delete_other.
Qed.

Lemma routes_scoping_witness :
  rowsOf "bob"
    (snd (patch_trade _ Sample2.parseUpdate 5000 "alice" "t4"
                      (Some Sample.longClosed) Sample.threeClosed))
  = rowsOf "bob" Sample.threeClosed.
Proof.
  assert (Hne : "alice"%string <> "bob"%string) by discriminate.
  destruct (routes_scoping "alice" "bob" Sample.threeClosed Hne)
    as (_ & Hpatch & _).
  exact (proj1 (Hpatch _ Sample2.parseUpdate 5000 "t4"%string
                       (Some Sample.longClosed))).
Defined.

(** ** Winning trades *)


